(** * The casualty data pipeline of [dashboard.py]

    A shallow embedding of the data transformations of the dashboard
    script: loading the two JSON collections into frames, the date-range
    filter, the daily series (difference of the cumulative count and its
    rolling mean), the age series of the histogram, the metric cards and
    the row-wise [categorize].

    Numbers of the datasets are integers; pandas stores them as 64-bit
    floats once a column holds a missing value, which represents every
    integer of magnitude below 2^53 exactly, so integer columns are [Z]
    and a missing cell (NaN, None, NaT) is [None].  A rolling mean is the
    exact rational [sum / count]. *)

From Stdlib Require Import ZArith QArith List String Ascii Bool Arith Lia.
Import ListNotations.

Local Open Scope Z_scope.

(** ** Python outcomes: a statement returns a value or raises *)

Module Py.

Inductive exn : Type :=
| KeyError (key : string)
| ValueError (msg : string)
| StreamlitInvalidMinMaxError.

Inductive outcome (A : Type) : Type :=
| Returns (a : A)
| Raises (e : exn).

Arguments Returns {A} a.
Arguments Raises {A} e.

Definition bind {A B : Type} (m : outcome A) (k : A -> outcome B) : outcome B :=
  match m with
  | Returns a => k a
  | Raises e => Raises e
  end.

Definition fmap {A B : Type} (f : A -> B) (m : outcome A) : outcome B :=
  bind m (fun a => Returns (f a)).

(** [int(x)] of a float: fails on NaN. *)
Definition int (x : option Z) : outcome Z :=
  match x with
  | Some v => Returns v
  | None => Raises (ValueError "cannot convert float NaN to integer")
  end.

End Py.

Import Py.

Notation "x <- m ;; k" := (Py.bind m (fun x => k))
  (at level 61, m at next level, right associativity).

(** ** Timestamps and calendar dates *)

(** A pandas [Timestamp] is a count of nanoseconds since 1970-01-01; a
    [date] is the count of whole days. *)
Definition Timestamp : Type := Z.
Definition Date : Type := Z.

Definition ns_per_day : Z := 86400 * 1000000000.

(** [Timestamp.date()]: the calendar day, the time of day dropped. *)
Definition date (t : Timestamp) : Date := t / ns_per_day.

(** ** The two JSON collections *)

(** A member of a JSON object: absent, [null], or a value. *)
Inductive field (A : Type) : Type :=
| Missing
| Null
| Value (a : A).

Arguments Missing {A}.
Arguments Null {A}.
Arguments Value {A} a.

Definition present {A : Type} (f : field A) : bool :=
  match f with
  | Missing => false
  | _ => true
  end.

(** The cell [pd.DataFrame] builds for a member: NaN/None unless a value. *)
Definition cell {A : Type} (f : field A) : option A :=
  match f with
  | Value a => Some a
  | _ => None
  end.

(** An object of killed-in-gaza: [{age?: number, sex?: 'm'|'f'}]. *)
Record killed_json : Type := {
  json_age : field Z;
  json_sex : field string
}.

(** An object of casualties_daily:
    [{report_date: string, killed_cum: number, injured_cum?: number}]. *)
Record casualties_json : Type := {
  json_report_date : string;
  json_killed_cum : Z;
  json_injured_cum : field Z
}.

(** ** The frames *)

(** A row of [df_killed], with the columns the script reads. *)
Record killed_row : Type := {
  age : option Z;
  sex : option string
}.

(** A row of [df_casualties]; [report_date] is NaT ([None]) where the
    string was not a date. *)
Record casualties_row : Type := {
  report_date : option Timestamp;
  killed_cum : Z;
  injured_cum : option Z
}.

(** [df_casualties]: its rows in index order, and whether the frame has
    the optional column ['injured_cum'], which it has as soon as one
    object of the collection has the member. *)
Record casualties_frame : Type := {
  rows : list casualties_row;
  has_injured_cum : bool
}.

(** ** [load_data] (lines 40-52) *)

Section Load.

(** [pd.to_datetime(_, errors='coerce')] on one string of the column:
    the timestamp, or NaT where the string is not a date (in the one
    format the column is read with). *)
Variable to_datetime : string -> option Timestamp.

Definition killed_of_json (o : killed_json) : killed_row :=
  {| age := cell (json_age o); sex := cell (json_sex o) |}.

Definition casualties_of_json (o : casualties_json) : casualties_row :=
  {| report_date := to_datetime (json_report_date o);
     killed_cum := json_killed_cum o;
     injured_cum := cell (json_injured_cum o) |}.

(** The frame of an empty collection has no column, and
    [df_casualties['report_date']] raises.  A column ['age'] or ['sex']
    that no object has is added filled with None, the cell an absent
    member gets anyway. *)
Definition load_data (killed : list killed_json)
    (casualties : list casualties_json)
  : outcome (list killed_row * casualties_frame) :=
  let df_killed := map killed_of_json killed in
  match casualties with
  | [] => Raises (KeyError "report_date")
  | _ :: _ =>
      let df_casualties :=
        {| rows := map casualties_of_json casualties;
           has_injured_cum :=
             existsb (fun o => present (json_injured_cum o)) casualties |} in
      Returns (df_killed, df_casualties)
  end.

End Load.

(** The dataset writes its dates as ISO calendar dates, [YYYY-MM-DD].
    [iso_to_datetime] reads that fragment only: midnight of the day for
    a valid date inside the range of a nanosecond timestamp, NaT for
    any other string.  [pd.to_datetime] reads more (other formats,
    times of day, a format guessed for the whole column); the general
    properties below hold for every [to_datetime], and this one is used
    in the worked examples, on dates of the fragment and on a string
    that is a date in no format. *)

Definition digit (c : ascii) : option Z :=
  let n := Z.of_nat (nat_of_ascii c) in
  if (48 <=? n) && (n <=? 57) then Some (n - 48) else None.

Fixpoint digits (acc : Z) (cs : list ascii) : option Z :=
  match cs with
  | [] => Some acc
  | c :: cs' =>
      match digit c with
      | Some d => digits (10 * acc + d) cs'
      | None => None
      end
  end.

Definition is_leap (y : Z) : bool :=
  (y mod 4 =? 0) && (negb (y mod 100 =? 0) || (y mod 400 =? 0)).

Definition days_in_month (y m : Z) : Z :=
  if m =? 2 then (if is_leap y then 29 else 28)
  else if (m =? 4) || (m =? 6) || (m =? 9) || (m =? 11) then 30
  else 31.

(** Days from 1970-01-01 to the day [y]-[m]-[d] of the proleptic
    Gregorian calendar. *)
Definition days_from_civil (y m d : Z) : Z :=
  let y' := if m <=? 2 then y - 1 else y in
  let era := y' / 400 in
  let yoe := y' - era * 400 in
  let mp := if 2 <? m then m - 3 else m + 9 in
  let doy := (153 * mp + 2) / 5 + d - 1 in
  let doe := yoe * 365 + yoe / 4 - yoe / 100 + doy in
  era * 146097 + doe - 719468.

Definition iso_to_datetime (s : string) : option Timestamp :=
  match list_ascii_of_string s with
  | [y1; y2; y3; y4; "-"%char; m1; m2; "-"%char; d1; d2] =>
      match digits 0 [y1; y2; y3; y4], digits 0 [m1; m2], digits 0 [d1; d2] with
      | Some y, Some m, Some d =>
          if (1678 <=? y) && (y <=? 2261) && (1 <=? m) && (m <=? 12)
             && (1 <=? d) && (d <=? days_in_month y m)
          then Some (days_from_civil y m d * ns_per_day)
          else None
      | _, _, _ => None
      end
  | _ => None
  end.

(** ** Series operations of pandas the script calls *)

Module Series.

(** [s.max()] and [s.min()]: over the cells that are not missing; NaN
    (NaT) when there is none. *)
Fixpoint max (s : list (option Z)) : option Z :=
  match s with
  | [] => None
  | x :: s' =>
      match x, max s' with
      | Some v, Some m => Some (Z.max v m)
      | Some v, None => Some v
      | None, m => m
      end
  end.

Fixpoint min (s : list (option Z)) : option Z :=
  match s with
  | [] => None
  | x :: s' =>
      match x, min s' with
      | Some v, Some m => Some (Z.min v m)
      | Some v, None => Some v
      | None, m => m
      end
  end.

(** [s.diff()]: each cell minus the one before it; the first cell has
    none before it and is NaN. *)
Fixpoint diff_from (prev : Z) (s : list Z) : list (option Z) :=
  match s with
  | [] => []
  | x :: s' => Some (x - prev) :: diff_from x s'
  end.

Definition diff (s : list Z) : list (option Z) :=
  match s with
  | [] => []
  | x :: s' => None :: diff_from x s'
  end.

(** [s.fillna(value)] with a series [value] on the same index: a
    missing cell takes the cell of [value] at its position. *)
Fixpoint fillna (s : list (option Z)) (value : list Z) : list Z :=
  match s, value with
  | Some v :: s', _ :: value' => v :: fillna s' value'
  | None :: s', f :: value' => f :: fillna s' value'
  | _, _ => []
  end.

(** [s.dropna()]: the cells that are not missing, in index order. *)
Fixpoint dropna (s : list (option Z)) : list Z :=
  match s with
  | [] => []
  | Some v :: s' => v :: dropna s'
  | None :: s' => dropna s'
  end.

(** [s.astype(int)]: the cells hold integers, which convert as they
    are. *)
Definition astype_int (s : list Z) : list Z := s.

End Series.

(** [s.rolling(window, min_periods).mean()] as pandas computes it: the
    window of position [i] is the index range [[start i, end i)] of the
    fixed-window indexer, and one running sum and count of observations
    slide along the series, the cells that leave the window removed and
    the ones that enter it added.  The sum is exact here, so the
    compensation and the sign guard pandas adds against the rounding of
    floats have nothing to correct and are left out. *)

Module Rolling.

Local Open Scope nat_scope.

Record mean_state : Type := {
  sum_x : Z;
  nobs : nat
}.

Definition empty : mean_state := {| sum_x := 0%Z; nobs := 0 |}.

Definition add_mean (st : mean_state) (v : Z) : mean_state :=
  {| sum_x := (sum_x st + v)%Z; nobs := nobs st + 1 |}.

Definition remove_mean (st : mean_state) (v : Z) : mean_state :=
  {| sum_x := (sum_x st - v)%Z; nobs := nobs st - 1 |}.

(** NaN unless the window holds [minp] observations, and one at least. *)
Definition calc_mean (minp : nat) (st : mean_state) : option Q :=
  if (minp <=? nobs st) && (0 <? nobs st)
  then Some (Qmake (sum_x st) (Pos.of_nat (nobs st)))
  else None.

(** The bounds of the fixed-window indexer over [n] cells:
    [end = i + 1] and [start = end - window], both clipped to
    [[0, n]]; the subtraction of [nat] stops at 0. *)
Definition window_end (n i : nat) : nat := Nat.min (i + 1) n.

Definition window_start (n window i : nat) : nat :=
  Nat.min (i + 1 - window) n.

Definition add_range (values : list Z) (lo hi : nat) (st : mean_state)
  : mean_state :=
  fold_left (fun st j => add_mean st (nth j values 0%Z)) (seq lo (hi - lo)) st.

Definition remove_range (values : list Z) (lo hi : nat) (st : mean_state)
  : mean_state :=
  fold_left (fun st j => remove_mean st (nth j values 0%Z)) (seq lo (hi - lo)) st.

(** One pass of the loop over the positions [i, i + 1, ...]: the state
    is set up afresh at the first position and whenever the window has
    no cell in common with the one before it, and slid otherwise. *)
Fixpoint roll_mean_from (values : list Z) (minp window : nat)
    (todo i : nat) (st : mean_state) : list (option Q) :=
  match todo with
  | O => []
  | S todo' =>
      let n := List.length values in
      let s := window_start n window i in
      let e := window_end n i in
      let st' :=
        if (i =? 0) || (window_end n (i - 1) <=? s)
        then add_range values s e empty
        else add_range values (window_end n (i - 1)) e
               (remove_range values (window_start n window (i - 1)) s st) in
      calc_mean minp st' :: roll_mean_from values minp window todo' (S i) st'
  end.

Definition mean (values : list Z) (window minp : nat) : list (option Q) :=
  roll_mean_from values minp window (List.length values) 0 empty.

End Rolling.

(** ** Filter by date (lines 62-75) *)

(** A comparison of a [report_date.dt.date] cell with a date: false on
    NaT. *)
Definition date_ge (t : option Timestamp) (bound : Date) : bool :=
  match t with
  | Some t => bound <=? date t
  | None => false
  end.

Definition date_le (t : option Timestamp) (bound : Date) : bool :=
  match t with
  | Some t => date t <=? bound
  | None => false
  end.

(** [df_casualties['report_date'].min().date()], NaT when no cell holds
    a date; these are the ends of the slider and the pair it starts at. *)
Definition min_date (df_casualties : casualties_frame) : option Date :=
  option_map date (Series.min (map report_date (rows df_casualties))).

Definition max_date (df_casualties : casualties_frame) : option Date :=
  option_map date (Series.max (map report_date (rows df_casualties))).

(** The rows the mask keeps, in index order; [start_date] and [end_date]
    are the pair the slider returns. *)
Definition df_casualties_filtered (df_casualties : casualties_frame)
    (start_date end_date : Date) : casualties_frame :=
  {| rows :=
       filter (fun r => date_ge (report_date r) start_date
                        && date_le (report_date r) end_date)
              (rows df_casualties);
     has_injured_cum := has_injured_cum df_casualties |}.

(** ** Daily deaths series (lines 80-82) *)

(** The frame [daily], column by column. *)
Record daily_frame : Type := {
  daily_report_date : list (option Timestamp);
  daily_killed_cum : list Z;
  daily_deaths : list Z;
  daily_ma : list (option Q)
}.

Definition daily (filtered : casualties_frame) (window : nat) : daily_frame :=
  let killed := map killed_cum (rows filtered) in
  let deaths := Series.fillna (Series.diff killed) killed in
  {| daily_report_date := map report_date (rows filtered);
     daily_killed_cum := killed;
     daily_deaths := deaths;
     daily_ma := Rolling.mean deaths window 1 |}.

(** ** Casualties by age (line 89) *)

Definition age_counts (df_killed : list killed_row) : list Z :=
  Series.astype_int (Series.dropna (map age df_killed)).

(** ** Metric cards (lines 143-156) *)

(** [cell < bound] and [cell == label]: false on a missing cell. *)
Definition cell_lt (c : option Z) (bound : Z) : bool :=
  match c with
  | Some v => v <? bound
  | None => false
  end.

Definition cell_ge (c : option Z) (bound : Z) : bool :=
  match c with
  | Some v => bound <=? v
  | None => false
  end.

Definition cell_eq (c : option string) (label : string) : bool :=
  match c with
  | Some v => String.eqb v label
  | None => false
  end.

Definition total_latest (df_casualties : casualties_frame) : option Z :=
  Series.max (map (fun r => Some (killed_cum r)) (rows df_casualties)).

Definition children_count (df_killed : list killed_row) : nat :=
  List.length (filter (fun r => cell_lt (age r) 18) df_killed).

Definition men_count (df_killed : list killed_row) : nat :=
  List.length (filter (fun r => cell_eq (sex r) "m") df_killed).

Definition women_count (df_killed : list killed_row) : nat :=
  List.length (filter (fun r => cell_eq (sex r) "f") df_killed).

Definition injured_total (df_casualties : casualties_frame) : option Z :=
  if has_injured_cum df_casualties
  then Series.max (map injured_cum (rows df_casualties))
  else Some 0.

(** The five cards; the two that come from [max()] are shown through
    [int(_)]. *)
Record metrics : Type := {
  total_deaths : Z;
  children : nat;
  men : nat;
  women : nat;
  cumulative_injured : Z
}.

Definition metric_cards (df_killed : list killed_row)
    (df_casualties : casualties_frame) : outcome metrics :=
  total <- Py.int (total_latest df_casualties) ;;
  injured <- Py.int (injured_total df_casualties) ;;
  Returns {| total_deaths := total;
             children := children_count df_killed;
             men := men_count df_killed;
             women := women_count df_killed;
             cumulative_injured := injured |}.

(** ** [categorize] (lines 161-173) *)

(** The four labels ['Children'], ['Women'], ['Seniors'], ['Others']. *)
Inductive category : Type :=
| Children
| Women
| Seniors
| Others.

Definition categorize (row : killed_row) : category :=
  match age row with
  | None => Others
  | Some a =>
      if a <? 18 then Children
      else if cell_eq (sex row) "f" then Women
      else if 60 <=? a then Seniors
      else Others
  end.

(** ** The script, top to bottom *)

(** What one run computes for the page: the frames behind the charts,
    the table and the cards.  The widgets and the drawing calls are not
    part of it; the pair of the slider and the window of the number
    input come in as arguments.  [app], further down, is the run with
    the two widgets in it. *)
Record page : Type := {
  page_daily : daily_frame;
  page_age_counts : list Z;
  page_metrics : metrics;
  page_category : list category
}.

Definition dashboard (to_datetime : string -> option Timestamp)
    (killed : list killed_json) (casualties : list casualties_json)
    (window : nat) (start_date end_date : Date) : outcome page :=
  frames <- load_data to_datetime killed casualties ;;
  let df_killed := fst frames in
  let df_casualties := snd frames in
  let filtered := df_casualties_filtered df_casualties start_date end_date in
  let daily := daily filtered window in
  let age_counts := age_counts df_killed in
  cards <- metric_cards df_killed df_casualties ;;
  Returns {| page_daily := daily;
             page_age_counts := age_counts;
             page_metrics := cards;
             page_category := map categorize df_killed |}.

(** ** The words of the specification *)

(** "The number of records with [P]": [counts P l n]. *)
Inductive counts {A : Type} (P : A -> Prop) : list A -> nat -> Prop :=
| counts_nil : counts P [] 0
| counts_in (x : A) (l : list A) (n : nat) :
    P x -> counts P l n -> counts P (x :: l) (S n)
| counts_out (x : A) (l : list A) (n : nat) :
    ~ P x -> counts P l n -> counts P (x :: l) n.

(** "[m] is the maximum of the values [l]". *)
Definition maximum_of (l : list Z) (m : Z) : Prop :=
  In m l /\ Forall (fun v => v <= m) l.

(** [xs[max(0, i - windowSize + 1) .. i]], both ends included. *)
Definition trailing_window (xs : list Z) (windowSize i : nat) : list Z :=
  let lo := Z.to_nat (Z.max 0 (Z.of_nat i - Z.of_nat windowSize + 1)) in
  firstn (i - lo + 1) (skipn lo xs).

Definition arithmetic_mean (xs : list Z) : Q :=
  Qmake (fold_right Z.add 0 xs) (Pos.of_nat (List.length xs)).

(** A record whose age is known and below 18; a record of a given sex. *)
Definition known_minor (r : killed_row) : Prop :=
  exists a, age r = Some a /\ a < 18.

Definition of_sex (label : string) (r : killed_row) : Prop :=
  sex r = Some label.

(** The sum of the cells of [values] at the positions [[lo, hi)], and
    the running state that holds exactly the window of position [i]. *)
Definition range_sum (values : list Z) (lo hi : nat) : Z :=
  fold_right Z.add 0 (map (fun j => nth j values 0) (seq lo (hi - lo))).

Definition window_state (values : list Z) (window i : nat) : Rolling.mean_state :=
  let n := List.length values in
  let s := Rolling.window_start n window i in
  let e := Rolling.window_end n i in
  {| Rolling.sum_x := range_sum values s e; Rolling.nobs := (e - s)%nat |}.

(** A report whose date is known, and a cell that is not missing. *)
Definition known_date (r : casualties_row) : bool :=
  match report_date r with
  | Some _ => true
  | None => false
  end.

Definition known {A : Type} (c : option A) : bool :=
  match c with
  | Some _ => true
  | None => false
  end.

(** ** Sample data *)

Definition report (d : string) (k : Z) : casualties_json :=
  {| json_report_date := d; json_killed_cum := k; json_injured_cum := Missing |}.

Definition person (a : field Z) (s : field string) : killed_json :=
  {| json_age := a; json_sex := s |}.

(** The three reports of the worked example, and the same with the
    date of the last one misspelt. *)
Definition three_reports : list casualties_json :=
  [report "2024-01-01" 10; report "2024-01-02" 15; report "2024-01-03" 13].

Definition misdated_reports : list casualties_json :=
  [report "2024-01-01" 10; report "2024-01-02" 15; report "2024-13-03" 13].

Definition four_people : list killed_json :=
  [person (Value 5) (Value "m"%string); person Null (Value "f"%string);
   person (Value 65) (Value "m"%string); person (Value 40) (Value "f"%string)].

Definition day (n : Z) : Timestamp := n * ns_per_day.

Definition row (t : option Timestamp) (k : Z) : casualties_row :=
  {| report_date := t; killed_cum := k; injured_cum := None |}.

Definition frame (l : list casualties_row) : casualties_frame :=
  {| rows := l; has_injured_cum := false |}.

(** The frames [load_data] makes of the two collections of reports. *)
Definition three_frame : casualties_frame :=
  frame [row (Some (day 19723)) 10; row (Some (day 19724)) 15;
         row (Some (day 19725)) 13].

Definition misdated_frame : casualties_frame :=
  frame [row (Some (day 19723)) 10; row (Some (day 19724)) 15; row None 13].

(** ** The category counts of the pie (lines 173-174) *)

Definition category_eqb (c c' : category) : bool :=
  match c, c' with
  | Children, Children | Women, Women | Seniors, Seniors | Others, Others => true
  | _, _ => false
  end.

(** The count [column.value_counts()] gives a label.  The order of the
    labels in its result is not part of this. *)
Definition value_counts (column : list category) (label : category) : nat :=
  List.length (filter (category_eqb label) column).

(** ** Further vocabulary *)

(** [l] is [l'] with some of its elements left out, the others in
    their order. *)
Inductive subsequence {A : Type} : list A -> list A -> Prop :=
| subsequence_nil : subsequence [] []
| subsequence_keep (x : A) (l l' : list A) :
    subsequence l l' -> subsequence (x :: l) (x :: l')
| subsequence_drop (x : A) (l l' : list A) :
    subsequence l l' -> subsequence l (x :: l').

Definition total (l : list Z) : Z := fold_right Z.add 0 l.

(** The mask of the date filter on one row. *)
Definition in_range (start_date end_date : Date) (r : casualties_row) : bool :=
  date_ge (report_date r) start_date && date_le (report_date r) end_date.

(** ** The widgets (lines 33 and 62-70) and the run with them *)

(** [st.number_input(_, min_value, max_value, value)]: the number
    entered, which the widget holds between its two bounds, or [value]
    as long as none is.  [entered] is the state of the widget in the
    session; a number outside the bounds is no state of this widget,
    which then is at [value]. *)
Definition st_number_input (min_value max_value value : nat)
    (entered : option nat) : nat :=
  match entered with
  | Some n =>
      if ((min_value <=? n) && (n <=? max_value))%nat then n else value
  | None => value
  end.

(** [st.slider(_, min_value, max_value, value=(min_value, max_value))]
    over dates: the pair selected, which the widget holds ordered and
    between its two ends, or the two ends as long as none is.  The call
    raises when an end is NaT, and when the ends leave no room: the
    least date is the greatest.  [selected] is the state of the widget
    in the session; a pair out of order or beyond the ends is no state
    of this widget, which then is at its two ends. *)
Definition st_slider (min_value max_value : option Date)
    (selected : option (Date * Date)) : outcome (Date * Date) :=
  match min_value, max_value with
  | Some lo, Some hi =>
      if lo <? hi then
        Returns
          match selected with
          | Some (s, e) =>
              if (lo <=? s) && (s <=? e) && (e <=? hi) then (s, e) else (lo, hi)
          | None => (lo, hi)
          end
      else Raises StreamlitInvalidMinMaxError
  | _, _ => Raises (KeyError "NaTType")
  end.

(** Lines 72 to 173, on the two frames. *)
Definition page_of_frames (df_killed : list killed_row)
    (df_casualties : casualties_frame) (window : nat)
    (start_date end_date : Date) : outcome page :=
  let filtered := df_casualties_filtered df_casualties start_date end_date in
  let daily := daily filtered window in
  let age_counts := age_counts df_killed in
  cards <- metric_cards df_killed df_casualties ;;
  Returns {| page_daily := daily;
             page_age_counts := age_counts;
             page_metrics := cards;
             page_category := map categorize df_killed |}.

(** One run of the script on the two collections it reads, in the
    order of its lines: the number input, [load_data], the two ends and
    the slider, then the frames of the page. *)
Definition app (to_datetime : string -> option Timestamp)
    (killed : list killed_json) (casualties : list casualties_json)
    (entered : option nat) (selected : option (Date * Date)) : outcome page :=
  let window := st_number_input 1 30 7 entered in
  frames <- load_data to_datetime killed casualties ;;
  let df_killed := fst frames in
  let df_casualties := snd frames in
  selection <- st_slider (min_date df_casualties) (max_date df_casualties)
                 selected ;;
  page_of_frames df_killed df_casualties window (fst selection) (snd selection).

(** * Properties *)

(** ** The daily differences *)

Lemma fillna_diff_from_length (s : list Z) :
  forall prev, List.length (Series.fillna (Series.diff_from prev s) s) = List.length s.
Proof.
  induction s as [|x s IH]; intros prev; simpl.
  - reflexivity.
  - now rewrite IH.
Qed.

Lemma fillna_diff_length (s : list Z) :
  List.length (Series.fillna (Series.diff s) s) = List.length s.
Proof.
  destruct s as [|x s]; simpl; [reflexivity|].
  now rewrite fillna_diff_from_length.
Qed.

Lemma fillna_diff_from_nth (s : list Z) :
  forall prev i p c,
    nth_error (prev :: s) i = Some p ->
    nth_error s i = Some c ->
    nth_error (Series.fillna (Series.diff_from prev s) s) i = Some (c - p).
Proof.
  induction s as [|x s IH]; intros prev i p c Hp Hc.
  - destruct i; discriminate.
  - destruct i as [|i]; simpl in *.
    + congruence.
    + now apply IH.
Qed.

Lemma fillna_diff_nth (s : list Z) (i : nat) (p c : Z) :
  nth_error s i = Some p ->
  nth_error s (S i) = Some c ->
  nth_error (Series.fillna (Series.diff s) s) (S i) = Some (c - p).
Proof.
  destruct s as [|x s]; simpl.
  - destruct i; discriminate.
  - intros Hp Hc. now apply fillna_diff_from_nth.
Qed.

Lemma fillna_diff_head (s : list Z) :
  nth_error (Series.fillna (Series.diff s) s) 0 = nth_error s 0.
Proof.
  destruct s; reflexivity.
Qed.

(** C1: the column [deaths] of the daily series has one entry per
    report; its first entry is the first cumulative count, every later
    entry is the cumulative count minus the one before it, and a
    negative difference is kept: the cumulative counts 10, 15, 13 give
    10, 5, -2. *)
Theorem daily_deaths_are_differences (filtered : casualties_frame) (window : nat) :
  let cumulative := map killed_cum (rows filtered) in
  let incremental_deaths := daily_deaths (daily filtered window) in
  List.length incremental_deaths = List.length (rows filtered)
  /\ nth_error incremental_deaths 0 = nth_error cumulative 0
  /\ (forall i p c,
        nth_error cumulative i = Some p ->
        nth_error cumulative (S i) = Some c ->
        nth_error incremental_deaths (S i) = Some (c - p))
  /\ daily_deaths
       (daily (frame [row (Some (day 19723)) 10; row (Some (day 19724)) 15;
                      row (Some (day 19725)) 13]) window)
     = [10; 5; -2].
Proof.
  cbn zeta. unfold daily; cbn [daily_deaths].
  repeat split.
  - rewrite fillna_diff_length. apply length_map.
  - apply fillna_diff_head.
  - intros i p c. apply fillna_diff_nth.
Qed.

Lemma daily_deaths_are_differences_witness :
  nth_error
    (daily_deaths
       (daily (frame [row (Some (day 19723)) 10; row (Some (day 19724)) 15;
                      row (Some (day 19725)) 13]) 7)) 2
  = Some (13 - 15).
Proof.
  apply (proj1 (proj2 (proj2 (daily_deaths_are_differences
    (frame [row (Some (day 19723)) 10; row (Some (day 19724)) 15;
            row (Some (day 19725)) 13]) 7))) 1%nat 15 13);
    reflexivity.
Defined.

(** ** [categorize] *)

Lemma cell_eq_true (c : option string) (label : string) :
  cell_eq c label = true <-> c = Some label.
Proof.
  destruct c as [v|]; simpl.
  - rewrite String.eqb_eq. split; congruence.
  - split; discriminate.
Qed.

Lemma cell_lt_true (c : option Z) (bound : Z) :
  cell_lt c bound = true <-> exists v, c = Some v /\ v < bound.
Proof.
  destruct c as [v|]; simpl.
  - rewrite Z.ltb_lt. split.
    + intros H. now exists v.
    + intros (w & E & H). now injection E as ->.
  - split; [discriminate | intros (w & E & _); discriminate].
Qed.

(** C2: [categorize] gives every record one category, by the first of
    these that applies: unknown age, Others; age below 18, Children;
    sex female, Women; age 60 or more, Seniors; otherwise Others.  A
    girl of 10 is among the Children. *)
Theorem categorize_priority (r : killed_row) :
  (exists c, categorize r = c /\ forall c', categorize r = c' -> c' = c)
  /\ (age r = None -> categorize r = Others)
  /\ (forall a, age r = Some a -> a < 18 -> categorize r = Children)
  /\ (forall a, age r = Some a -> 18 <= a -> sex r = Some "f"%string ->
       categorize r = Women)
  /\ (forall a, age r = Some a -> 18 <= a -> sex r <> Some "f"%string ->
       60 <= a -> categorize r = Seniors)
  /\ (forall a, age r = Some a -> 18 <= a < 60 -> sex r <> Some "f"%string ->
       categorize r = Others)
  /\ categorize {| age := Some 10; sex := Some "f"%string |} = Children.
Proof.
  split; [eexists; split; [reflexivity | congruence] |].
  unfold categorize.
  destruct (age r) as [a|]; repeat split; try discriminate; trivial;
    intros a' [= <-]; intros.
  - destruct (Z.ltb_spec a 18); [reflexivity | lia].
  - destruct (Z.ltb_spec a 18); [lia |].
    now replace (cell_eq (sex r) "f") with true by (symmetry; now apply cell_eq_true).
  - destruct (Z.ltb_spec a 18); [lia |].
    destruct (cell_eq (sex r) "f") eqn:E; [now apply cell_eq_true in E |].
    destruct (Z.leb_spec 60 a); [reflexivity | lia].
  - destruct (Z.ltb_spec a 18); [lia |].
    destruct (cell_eq (sex r) "f") eqn:E; [now apply cell_eq_true in E |].
    destruct (Z.leb_spec 60 a); [lia | reflexivity].
Qed.

Lemma categorize_priority_witness :
  categorize {| age := Some 65; sex := Some "m"%string |} = Seniors.
Proof.
  apply (proj1 (proj2 (proj2 (proj2 (proj2
    (categorize_priority {| age := Some 65; sex := Some "m"%string |})))))
    65); simpl; [reflexivity | lia | discriminate | lia].
Defined.

(** The four records of the example fall in Children, Others, Seniors,
    Women. *)
Example categorize_four_people :
  map categorize (map killed_of_json four_people)
  = [Children; Others; Seniors; Women].
Proof. reflexivity. Qed.

(** ** The metric cards *)

Lemma counts_filter {A : Type} (P : A -> Prop) (p : A -> bool) :
  (forall x, p x = true <-> P x) ->
  forall l, counts P l (List.length (filter p l)).
Proof.
  intros Hp l. induction l as [|x l IH]; simpl.
  - constructor.
  - destruct (p x) eqn:E.
    + simpl. apply counts_in; [now apply Hp | exact IH].
    + apply counts_out; [| exact IH].
      intros HP. apply Hp in HP. congruence.
Qed.

Lemma counts_functional {A : Type} (P : A -> Prop) (l : list A) :
  forall n m, counts P l n -> counts P l m -> n = m.
Proof.
  induction l as [|x l IH]; intros n m Hn Hm;
    inversion Hn; subst; inversion Hm; subst;
    try reflexivity; try contradiction.
  - f_equal. now apply IH.
  - now apply IH.
Qed.

Lemma series_max_none (s : list (option Z)) :
  Series.max s = None -> forall v, ~ In (Some v) s.
Proof.
  induction s as [|[w|] s IH]; simpl; intros E v Hv.
  - exact Hv.
  - destruct (Series.max s); discriminate.
  - destruct Hv as [Hv | Hv]; [discriminate | now apply (IH E v)].
Qed.

Lemma series_max_upper (s : list (option Z)) :
  forall m, Series.max s = Some m -> forall v, In (Some v) s -> v <= m.
Proof.
  induction s as [|x s IH]; intros m Hm v Hv; [contradiction|].
  simpl in Hm, Hv.
  destruct x as [w|], (Series.max s) as [m'|] eqn:E.
  - injection Hm as <-. destruct Hv as [[= ->] | Hv]; [lia |].
    specialize (IH m' eq_refl v Hv). lia.
  - injection Hm as <-. destruct Hv as [[= ->] | Hv]; [lia |].
    now apply series_max_none with (v := v) in E.
  - destruct Hv as [Hv | Hv]; [discriminate | now apply IH].
  - discriminate.
Qed.

Lemma series_max_member (s : list (option Z)) :
  forall m, Series.max s = Some m -> In (Some m) s.
Proof.
  induction s as [|x s IH]; intros m Hm; [discriminate|].
  simpl in Hm.
  destruct x as [w|], (Series.max s) as [m'|] eqn:E.
  - injection Hm as <-.
    destruct (Z.max_spec w m') as [[_ ->] | [_ ->]];
      [right; now apply IH | now left].
  - injection Hm as <-. now left.
  - right. now apply IH.
  - discriminate.
Qed.

Lemma series_max_known (s : list (option Z)) (v : Z) :
  In (Some v) s -> exists m, Series.max s = Some m.
Proof.
  induction s as [|x s IH]; intros Hv; [contradiction|].
  simpl. destruct Hv as [-> | Hv].
  - destruct (Series.max s); eauto.
  - destruct (IH Hv) as [m ->]. destruct x; eauto.
Qed.

Lemma total_latest_maximum (df_casualties : casualties_frame) (m : Z) :
  total_latest df_casualties = Some m ->
  maximum_of (map killed_cum (rows df_casualties)) m.
Proof.
  unfold total_latest, maximum_of. intros Hm. split.
  - apply series_max_member in Hm. rewrite in_map_iff in *.
    destruct Hm as (r & [= <-] & Hr). now exists r.
  - rewrite Forall_forall. intros v Hv.
    apply (series_max_upper _ _ Hm). rewrite in_map_iff in *.
    destruct Hv as (r & <- & Hr). now exists r.
Qed.

Lemma total_latest_known (df_casualties : casualties_frame) :
  rows df_casualties <> [] -> exists m, total_latest df_casualties = Some m.
Proof.
  unfold total_latest. destruct (rows df_casualties) as [|r l]; [congruence|].
  intros _. apply series_max_known with (v := killed_cum r). now left.
Qed.

Lemma no_injured_member (c : list casualties_json) :
  existsb (fun o => present (json_injured_cum o)) c = false
  <-> Forall (fun o => json_injured_cum o = Missing) c.
Proof.
  induction c as [|x c IH]; simpl.
  - split; [constructor | reflexivity].
  - rewrite orb_false_iff, IH. split.
    + intros [Hx Hc]. constructor; [| exact Hc].
      destruct (json_injured_cum x); [reflexivity | discriminate ..].
    + intros H. inversion H as [|? ? Hx Hc]; subst. now rewrite Hx.
Qed.

(** The frame has the column ['injured_cum'] unless no object of the
    collection has the member. *)
Lemma injured_column_absent to_datetime killed casualties df_killed df_casualties :
  load_data to_datetime killed casualties = Returns (df_killed, df_casualties) ->
  has_injured_cum df_casualties = false
  <-> Forall (fun o => json_injured_cum o = Missing) casualties.
Proof.
  unfold load_data. destruct casualties as [|o l]; [discriminate|].
  intros [= _ <-]. exact (no_injured_member (o :: l)).
Qed.

(** C4: the cards show the maximum cumulative count of killed over all
    reports, the number of records of known age below 18, the numbers of
    records of sex ['m'] and of sex ['f'], and the maximum cumulative
    count of injured over the reports that give one, or 0 when the
    collection has no such member at all; and they are shown whenever
    there is a report and an injured count to take the maximum of. *)
Theorem metric_cards_values (df_killed : list killed_row)
    (df_casualties : casualties_frame) :
  let injured := map injured_cum (rows df_casualties) in
  (rows df_casualties <> [] ->
   (has_injured_cum df_casualties = true -> exists v, In (Some v) injured) ->
   exists cards, metric_cards df_killed df_casualties = Returns cards)
  /\ (forall cards,
        metric_cards df_killed df_casualties = Returns cards ->
        maximum_of (map killed_cum (rows df_casualties)) (total_deaths cards)
        /\ (forall n, counts known_minor df_killed n <-> n = children cards)
        /\ (forall n, counts (of_sex "m") df_killed n <-> n = men cards)
        /\ (forall n, counts (of_sex "f") df_killed n <-> n = women cards)
        /\ (has_injured_cum df_casualties = false ->
             cumulative_injured cards = 0)
        /\ (has_injured_cum df_casualties = true ->
             In (Some (cumulative_injured cards)) injured
             /\ forall v, In (Some v) injured -> v <= cumulative_injured cards)).
Proof.
  intros injured. unfold metric_cards, injured_total. split.
  - intros Hrows Hinj.
    destruct (total_latest_known _ Hrows) as [m ->]. simpl.
    destruct (has_injured_cum df_casualties).
    + destruct (Hinj eq_refl) as [v Hv].
      destruct (series_max_known _ _ Hv) as [w Hw].
      fold injured. rewrite Hw. simpl. eauto.
    + simpl. eauto.
  - intros cards.
    destruct (total_latest df_casualties) as [m|] eqn:Hm; [simpl | discriminate].
    destruct (has_injured_cum df_casualties);
      (destruct (Py.int _) as [w|] eqn:Hw; [simpl | discriminate]);
      intros [= <-]; cbn [total_deaths children men women cumulative_injured].
    all: split; [now apply total_latest_maximum |].
    all: split; [intros n; split;
      [intros Hn; apply (counts_functional _ _ _ _ Hn); apply counts_filter; intros x; apply cell_lt_true
      | intros ->; apply counts_filter; intros x; apply cell_lt_true] |].
    all: split; [intros n; split;
      [intros Hn; apply (counts_functional _ _ _ _ Hn); apply counts_filter; intros x; apply cell_eq_true
      | intros ->; apply counts_filter; intros x; apply cell_eq_true] |].
    all: split; [intros n; split;
      [intros Hn; apply (counts_functional _ _ _ _ Hn); apply counts_filter; intros x; apply cell_eq_true
      | intros ->; apply counts_filter; intros x; apply cell_eq_true] |].
    + split; [discriminate | intros _].
      fold injured in Hw. destruct (Series.max injured) as [u|] eqn:Hu;
        [injection Hw as -> | discriminate].
      split; [now apply series_max_member | now apply series_max_upper].
    + split; [intros _; now injection Hw | discriminate].
Qed.

Lemma metric_cards_values_witness :
  (exists cards,
     metric_cards (map killed_of_json four_people)
       (frame [row (Some (day 19723)) 10; row (Some (day 19724)) 15;
               row None 13]) = Returns cards)
  /\ maximum_of [10; 15; 13] 15.
Proof.
  split.
  - apply (proj1 (metric_cards_values (map killed_of_json four_people)
      (frame [row (Some (day 19723)) 10; row (Some (day 19724)) 15;
              row None 13]))); simpl; discriminate.
  - apply (proj2 (metric_cards_values (map killed_of_json four_people)
      (frame [row (Some (day 19723)) 10; row (Some (day 19724)) 15;
              row None 13]))
      {| total_deaths := 15; children := 1; men := 2; women := 2;
         cumulative_injured := 0 |} eq_refl).
Defined.

(** ** The cards and the date filter *)

(** C5: the five cards are computed from the two frames as loaded; the
    pair of dates the slider returns (and the window) does not enter
    them, so two runs over the same collections show the same cards
    whatever ranges are selected. *)
Theorem metrics_ignore_date_filter (to_datetime : string -> option Timestamp)
    (killed : list killed_json) (casualties : list casualties_json)
    (window window' : nat) (start_date end_date start_date' end_date' : Date) :
  Py.fmap page_metrics
    (dashboard to_datetime killed casualties window start_date end_date)
  = Py.fmap page_metrics
      (dashboard to_datetime killed casualties window' start_date' end_date')
  /\ Py.fmap page_metrics
       (dashboard to_datetime killed casualties window start_date end_date)
     = (frames <- load_data to_datetime killed casualties ;;
        metric_cards (fst frames) (snd frames)).
Proof.
  unfold dashboard, Py.fmap.
  destruct (load_data to_datetime killed casualties) as [[df_killed df_casualties]|e];
    simpl; [| now split].
  destruct (metric_cards df_killed df_casualties); simpl; now split.
Qed.

(** A narrow range and the full range over the three reports: the same
    cards, the total 15 among them. *)
Example metrics_of_narrow_range :
  Py.fmap page_metrics (dashboard iso_to_datetime four_people three_reports 7 19724 19724)
  = Returns {| total_deaths := 15; children := 1; men := 2; women := 2;
               cumulative_injured := 0 |}.
Proof. reflexivity. Qed.

(** ** The date filter *)

Lemma date_monotone (t u : Timestamp) : t <= u -> date t <= date u.
Proof.
  intros H. unfold date. apply Z.div_le_mono; [reflexivity | exact H].
Qed.

Lemma series_min_lower (s : list (option Z)) :
  forall m, Series.min s = Some m -> forall v, In (Some v) s -> m <= v.
Proof.
  induction s as [|x s IH]; intros m Hm v Hv; [contradiction|].
  simpl in Hm, Hv.
  destruct x as [w|], (Series.min s) as [m'|] eqn:E.
  - injection Hm as <-. destruct Hv as [[= ->] | Hv]; [lia |].
    specialize (IH m' eq_refl v Hv). lia.
  - injection Hm as <-. destruct Hv as [[= ->] | Hv]; [lia |].
    exfalso. clear -E Hv. induction s as [|[u|] s IHs]; simpl in *.
    + exact Hv.
    + destruct (Series.min s); discriminate.
    + destruct Hv as [Hv | Hv]; [discriminate | now apply IHs].
  - destruct Hv as [Hv | Hv]; [discriminate | now apply IH].
  - discriminate.
Qed.

Lemma filter_all {A : Type} (p : A -> bool) (l : list A) :
  Forall (fun x => p x = true) l -> filter p l = l.
Proof.
  induction 1 as [|x l Hx _ IH]; simpl; [reflexivity|].
  now rewrite Hx, IH.
Qed.

(** Between the least and the greatest date of the frame, the mask keeps
    a row exactly when its date is known. *)
Lemma mask_of_full_range (df : casualties_frame) (lo hi : Date) :
  min_date df = Some lo ->
  max_date df = Some hi ->
  forall r, In r (rows df) ->
    date_ge (report_date r) lo && date_le (report_date r) hi = known_date r.
Proof.
  unfold min_date, max_date. intros Hlo Hhi r Hr.
  destruct (Series.min _) as [tmin|] eqn:Emin; [|discriminate].
  destruct (Series.max _) as [tmax|] eqn:Emax; [|discriminate].
  injection Hlo as <-. injection Hhi as <-.
  unfold known_date. destruct (report_date r) as [t|] eqn:Et; simpl; [|reflexivity].
  assert (Hin : In (Some t) (map report_date (rows df)))
    by (rewrite <- Et; now apply in_map).
  pose proof (series_min_lower _ _ Emin _ Hin) as Hmin.
  pose proof (series_max_upper _ _ Emax _ Hin) as Hmax.
  apply date_monotone in Hmin, Hmax.
  apply andb_true_iff. split; now apply Z.leb_le.
Qed.

Example load_three_reports :
  load_data iso_to_datetime four_people three_reports
  = Returns (map killed_of_json four_people, three_frame).
Proof. reflexivity. Qed.

Example load_misdated_reports :
  load_data iso_to_datetime four_people misdated_reports
  = Returns (map killed_of_json four_people, misdated_frame).
Proof. reflexivity. Qed.

(** C6, as the code has it: over the range from the least to the
    greatest report date the filter returns the reports whose date is
    known, in their order; it returns the frame unchanged when every
    report has a date. *)
Theorem full_range_keeps_dated_reports (df_casualties : casualties_frame)
    (lo hi : Date) :
  min_date df_casualties = Some lo ->
  max_date df_casualties = Some hi ->
  rows (df_casualties_filtered df_casualties lo hi)
  = filter known_date (rows df_casualties)
  /\ (Forall (fun r => report_date r <> None) (rows df_casualties) ->
       df_casualties_filtered df_casualties lo hi = df_casualties).
Proof.
  intros Hlo Hhi.
  assert (E : rows (df_casualties_filtered df_casualties lo hi)
              = filter known_date (rows df_casualties)).
  { cbn [df_casualties_filtered rows]. apply filter_ext_in.
    exact (mask_of_full_range _ _ _ Hlo Hhi). }
  split; [exact E |].
  intros Hall. destruct df_casualties as [l b].
  unfold df_casualties_filtered in *. cbn [rows has_injured_cum] in *.
  f_equal. rewrite E. apply filter_all.
  eapply Forall_impl; [| exact Hall].
  intros r. unfold known_date. destruct (report_date r); congruence.
Qed.

Lemma full_range_keeps_dated_reports_witness :
  df_casualties_filtered three_frame 19723 19725 = three_frame.
Proof.
  apply (proj2 (full_range_keeps_dated_reports three_frame 19723 19725
                  eq_refl eq_refl)).
  repeat constructor; discriminate.
Defined.

(** The misdated report is in the frame, and the filter over the full
    range of dates leaves it out: what it returns is not the frame. *)
Lemma full_range_drops_undated_report :
  min_date misdated_frame = Some 19723
  /\ max_date misdated_frame = Some 19724
  /\ df_casualties_filtered misdated_frame 19723 19724 <> misdated_frame.
Proof.
  repeat split. vm_compute. discriminate.
Qed.

(** C10: whatever the two bounds, every report the filter returns has a
    date, and a report whose date is NaT is not among them: both
    comparisons of the mask are false on it. *)
Theorem filtered_reports_are_dated (df_casualties : casualties_frame)
    (start_date end_date : Date) :
  Forall (fun r => exists t, report_date r = Some t)
    (rows (df_casualties_filtered df_casualties start_date end_date))
  /\ (forall r, report_date r = None ->
        date_ge (report_date r) start_date = false
        /\ date_le (report_date r) end_date = false
        /\ ~ In r (rows (df_casualties_filtered df_casualties start_date end_date))).
Proof.
  cbn [df_casualties_filtered rows]. split.
  - apply Forall_forall. intros r Hr. apply filter_In in Hr as [_ Hr].
    destruct (report_date r) as [t|]; [now exists t | discriminate Hr].
  - intros r Hr. rewrite Hr. repeat split.
    rewrite filter_In, Hr. now intros [_ H].
Qed.

Lemma filtered_reports_are_dated_witness :
  ~ In (row None 13) (rows (df_casualties_filtered misdated_frame 19723 19724)).
Proof.
  apply (proj2 (filtered_reports_are_dated misdated_frame 19723 19724)
           (row None 13) eq_refl).
Defined.

(** ** The reports [load_data] returns *)

(** C8, as the code has it: [load_data] returns one row per report of
    the collection, in its order; the row of a report has its cumulative
    count and the date its string parses to, NaT where it does not
    parse: the report is kept, not dropped. *)
Theorem load_data_keeps_every_report (to_datetime : string -> option Timestamp)
    (killed : list killed_json) (casualties : list casualties_json) :
  casualties <> [] ->
  exists df_killed df_casualties,
    load_data to_datetime killed casualties = Returns (df_killed, df_casualties)
    /\ List.length (rows df_casualties) = List.length casualties
    /\ forall i o,
         nth_error casualties i = Some o ->
         exists r,
           nth_error (rows df_casualties) i = Some r
           /\ report_date r = to_datetime (json_report_date o)
           /\ killed_cum r = json_killed_cum o.
Proof.
  intros Hne. unfold load_data.
  destruct casualties as [|o0 l] eqn:E; [congruence |]. rewrite <- E. clear.
  do 2 eexists. split; [reflexivity |]. cbn [rows]. split.
  - apply length_map.
  - intros i o Hi. exists (casualties_of_json to_datetime o). split.
    + now apply map_nth_error.
    + split; reflexivity.
Qed.

Lemma load_data_keeps_every_report_witness :
  exists df_killed df_casualties,
    load_data iso_to_datetime four_people misdated_reports
    = Returns (df_killed, df_casualties)
    /\ List.length (rows df_casualties) = List.length misdated_reports
    /\ forall i o,
         nth_error misdated_reports i = Some o ->
         exists r,
           nth_error (rows df_casualties) i = Some r
           /\ report_date r = iso_to_datetime (json_report_date o)
           /\ killed_cum r = json_killed_cum o.
Proof.
  apply (load_data_keeps_every_report iso_to_datetime four_people
           misdated_reports); discriminate.
Defined.

(** The third report names a thirteenth month; its date does not parse,
    and the report is in the frame [load_data] returns, its date NaT. *)
Lemma load_data_keeps_misdated_report :
  iso_to_datetime (json_report_date (report "2024-13-03" 13)) = None
  /\ In (report "2024-13-03" 13) misdated_reports
  /\ load_data iso_to_datetime four_people misdated_reports
     = Returns (map killed_of_json four_people, misdated_frame)
  /\ In {| report_date := None; killed_cum := 13; injured_cum := None |}
        (rows misdated_frame).
Proof.
  repeat split; simpl; auto.
Qed.

(** ** The ages of the histogram *)

(** C9, as the code has it: [age_counts] is the known ages, each as it
    is in the record, in the order of the records; a record of unknown
    age contributes nothing, and no age is brought into a range. *)
Theorem age_counts_are_known_ages (df_killed : list killed_row) :
  map Some (age_counts df_killed) = filter known (map age df_killed)
  /\ (forall a, In a (age_counts df_killed)
                <-> exists r, In r df_killed /\ age r = Some a).
Proof.
  unfold age_counts, Series.astype_int.
  induction df_killed as [|r l [IH1 IH2]]; simpl.
  - split; [reflexivity |]. intros a. split; [contradiction |].
    now intros (r & [] & _).
  - destruct (age r) as [a0|] eqn:Ea; simpl.
    + split; [now rewrite IH1 |]. intros a. rewrite IH2. split.
      * intros [<- | (r' & Hr' & Ha)]; [now exists r; auto | exists r'; auto].
      * intros (r' & [<- | Hr'] & Ha); [left; congruence | right; now exists r'].
    + split; [exact IH1 |]. intros a. rewrite IH2. split.
      * intros (r' & Hr' & Ha). exists r'; auto.
      * intros (r' & [<- | Hr'] & Ha); [congruence | now exists r'].
Qed.

(** An age of 150 comes out as 150, outside the range from 0 to 110. *)
Lemma age_counts_out_of_range :
  age_counts [ {| age := Some 150; sex := Some "m"%string |} ] = [150]
  /\ ~ (0 <= 150 <= 110).
Proof.
  split; [reflexivity | lia].
Qed.

(** ** The rolling mean *)

Section RollingMean.

Import Rolling.
Local Open Scope nat_scope.

Variable values : list Z.

Lemma add_cells (cell_at : nat -> Z) (k : nat) :
  forall lo st,
    fold_left (fun st j => add_mean st (cell_at j)) (seq lo k) st
    = {| sum_x := (sum_x st + fold_right Z.add 0 (map cell_at (seq lo k)))%Z;
         nobs := nobs st + k |}.
Proof.
  induction k as [|k IH]; intros lo st; simpl.
  - destruct st; simpl. f_equal; lia.
  - rewrite IH. unfold add_mean; simpl. f_equal; lia.
Qed.

Lemma remove_cells (cell_at : nat -> Z) (k : nat) :
  forall lo st,
    fold_left (fun st j => remove_mean st (cell_at j)) (seq lo k) st
    = {| sum_x := (sum_x st - fold_right Z.add 0 (map cell_at (seq lo k)))%Z;
         nobs := nobs st - k |}.
Proof.
  induction k as [|k IH]; intros lo st; simpl.
  - destruct st; simpl. f_equal; lia.
  - rewrite IH. unfold remove_mean; simpl. f_equal; lia.
Qed.

Lemma add_range_sum (lo hi : nat) (st : mean_state) :
  add_range values lo hi st
  = {| sum_x := (sum_x st + range_sum values lo hi)%Z;
       nobs := nobs st + (hi - lo) |}.
Proof. apply (add_cells (fun j => nth j values 0%Z)). Qed.

Lemma remove_range_sum (lo hi : nat) (st : mean_state) :
  remove_range values lo hi st
  = {| sum_x := (sum_x st - range_sum values lo hi)%Z;
       nobs := nobs st - (hi - lo) |}.
Proof. apply (remove_cells (fun j => nth j values 0%Z)). Qed.

Lemma sum_app (l l' : list Z) :
  fold_right Z.add 0%Z (l ++ l')
  = (fold_right Z.add 0 l + fold_right Z.add 0 l')%Z.
Proof.
  induction l as [|x l IH]; simpl; [reflexivity | lia].
Qed.

Lemma range_sum_split (lo mid hi : nat) :
  lo <= mid <= hi ->
  range_sum values lo hi
  = (range_sum values lo mid + range_sum values mid hi)%Z.
Proof.
  intros [H1 H2]. unfold range_sum.
  replace (hi - lo) with ((mid - lo) + (hi - mid)) by lia.
  rewrite seq_app, map_app, sum_app.
  now replace (lo + (mid - lo)) with mid by lia.
Qed.

Variables minp window : nat.

(** One turn of the loop leaves the state of the window of [i], if it
    starts from the state of the window before it. *)
Lemma slide (i : nat) (st : mean_state) :
  i = 0 \/ st = window_state values window (i - 1) ->
  let n := List.length values in
  let s := window_start n window i in
  let e := window_end n i in
  (if (i =? 0) || (window_end n (i - 1) <=? s)
   then add_range values s e empty
   else add_range values (window_end n (i - 1)) e
          (remove_range values (window_start n window (i - 1)) s st))
  = window_state values window i.
Proof.
  intros Hst n s e.
  destruct ((i =? 0) || (window_end n (i - 1) <=? s)) eqn:Hsetup.
  - rewrite add_range_sum. unfold window_state. fold n s e. simpl.
    f_equal.
  - apply orb_false_iff in Hsetup as [Hi Hs].
    apply Nat.eqb_neq in Hi. apply Nat.leb_gt in Hs.
    destruct Hst as [-> | ->]; [congruence |].
    rewrite add_range_sum, remove_range_sum.
    unfold window_state. fold n s e. cbn [sum_x nobs].
    set (s' := window_start n window (i - 1)) in *.
    set (e' := window_end n (i - 1)) in *.
    assert (Hs' : s' <= s) by (unfold s', s, window_start; lia).
    assert (He' : e' <= e) by (unfold e', e, window_end; lia).
    rewrite (range_sum_split s' s e') by lia.
    rewrite (range_sum_split s e' e) by lia.
    f_equal; lia.
Qed.

Lemma roll_mean_from_length (todo : nat) :
  forall i st, List.length (roll_mean_from values minp window todo i st) = todo.
Proof.
  induction todo as [|todo IH]; intros i st; simpl; [reflexivity |].
  now rewrite IH.
Qed.

Lemma roll_mean_from_nth (todo : nat) :
  forall i st k,
    i = 0 \/ st = window_state values window (i - 1) ->
    k < todo ->
    nth_error (roll_mean_from values minp window todo i st) k
    = Some (calc_mean minp (window_state values window (i + k))).
Proof.
  induction todo as [|todo IH]; intros i st k Hst Hk; [lia |].
  cbn [roll_mean_from]. rewrite (slide i st Hst).
  destruct k as [|k]; cbn [nth_error].
  - now rewrite Nat.add_0_r.
  - rewrite IH; [| right; f_equal; lia | lia].
    do 3 f_equal. lia.
Qed.

(** The cells at the positions [lo, lo + 1, ...] are the slice. *)
Lemma cells_of_slice (k : nat) :
  forall lo l,
    lo + k <= List.length l ->
    map (fun j => nth j l 0%Z) (seq lo k) = firstn k (skipn lo l).
Proof.
  induction k as [|k IH]; intros lo l Hk; [reflexivity |].
  revert l Hk. induction lo as [|lo IHlo]; intros [|x l] Hk; simpl in Hk; try lia.
  - cbn [seq map nth skipn firstn]. f_equal.
    rewrite <- seq_shift, map_map. cbn [nth].
    rewrite (IH 0 l) by lia. reflexivity.
  - cbn [skipn]. rewrite <- (IHlo l) by lia.
    rewrite <- seq_shift with (start := lo), map_map. reflexivity.
Qed.

End RollingMean.

Lemma trailing_window_slice (xs : list Z) (windowSize i : nat) :
  (1 <= windowSize)%nat ->
  (i < List.length xs)%nat ->
  let n := List.length xs in
  let s := Rolling.window_start n windowSize i in
  let e := Rolling.window_end n i in
  (s < e)%nat
  /\ trailing_window xs windowSize i
     = map (fun j => nth j xs 0) (seq s (e - s))
  /\ List.length (trailing_window xs windowSize i) = (e - s)%nat.
Proof.
  intros Hw Hi n s e. unfold trailing_window.
  assert (Hs : s = (i + 1 - windowSize)%nat)
    by (unfold s, Rolling.window_start; fold n; lia).
  assert (He : e = (i + 1)%nat)
    by (unfold e, Rolling.window_end; fold n; lia).
  replace (Z.to_nat (Z.max 0 (Z.of_nat i - Z.of_nat windowSize + 1))) with s by lia.
  replace (i - s + 1)%nat with (e - s)%nat by lia.
  split; [lia |]. split.
  - symmetry. apply cells_of_slice. fold n. lia.
  - rewrite length_firstn, length_skipn. fold n. lia.
Qed.

Lemma rolling_mean_nth (xs : list Z) (windowSize i : nat) :
  (1 <= windowSize)%nat ->
  (i < List.length xs)%nat ->
  nth_error (Rolling.mean xs windowSize 1) i
  = Some (Some (arithmetic_mean (trailing_window xs windowSize i))).
Proof.
  intros Hw Hi. unfold Rolling.mean.
  rewrite roll_mean_from_nth by (auto; lia).
  destruct (trailing_window_slice xs windowSize i Hw Hi) as (Hse & Hslice & Hlen).
  unfold Rolling.calc_mean, window_state, arithmetic_mean.
  cbn [Rolling.sum_x Rolling.nobs Nat.add].
  rewrite Hlen, Hslice. unfold range_sum.
  replace ((1 <=? _)%nat && (0 <? _)%nat) with true; [reflexivity |].
  symmetry. apply andb_true_iff.
  split; [apply Nat.leb_le | apply Nat.ltb_lt]; lia.
Qed.

(** C3: for a window of 1 to 30 days, the moving average has one entry
    per report, and its entry [i] is the arithmetic mean of the daily
    deaths at the positions [max(0, i - windowSize + 1)] to [i]: the
    window is shorter at the start of the series, never undefined.
    With a window of one day it is the daily deaths themselves. *)
Theorem moving_average_is_trailing_mean (filtered : casualties_frame)
    (windowSize : nat) :
  (1 <= windowSize <= 30)%nat ->
  let series := daily filtered windowSize in
  List.length (daily_ma series) = List.length (rows filtered)
  /\ (forall i, (i < List.length (rows filtered))%nat ->
        nth_error (daily_ma series) i
        = Some (Some (arithmetic_mean
                        (trailing_window (daily_deaths series) windowSize i))))
  /\ (windowSize = 1%nat ->
      daily_ma series = map (fun v => Some (inject_Z v)) (daily_deaths series)).
Proof.
  intros [Hw _] series. unfold series, daily. cbn [daily_ma daily_deaths].
  set (deaths := Series.fillna _ _).
  assert (Hlen : List.length deaths = List.length (rows filtered))
    by (unfold deaths; rewrite fillna_diff_length; apply length_map).
  split; [| split].
  - unfold Rolling.mean. now rewrite roll_mean_from_length.
  - intros i Hi. apply rolling_mean_nth; [exact Hw | lia].
  - intros ->. apply nth_error_ext. intros i.
    destruct (Nat.lt_ge_cases i (List.length deaths)) as [Hi | Hi].
    + rewrite rolling_mean_nth by (auto; lia).
      destruct (nth_error deaths i) as [v|] eqn:Ev;
        [| apply nth_error_None in Ev; lia].
      rewrite (map_nth_error _ _ _ Ev). do 2 f_equal.
      unfold trailing_window.
      replace (Z.to_nat (Z.max 0 (Z.of_nat i - Z.of_nat 1 + 1))) with i by lia.
      replace (i - i + 1)%nat with 1%nat by lia.
      apply nth_error_split in Ev as (l1 & l2 & -> & <-).
      rewrite skipn_app, Nat.sub_diag, skipn_all. cbn.
      unfold arithmetic_mean, inject_Z. cbn. now rewrite Z.add_0_r.
    + transitivity (@None (option Q)); [| symmetry]; apply nth_error_None.
      * unfold Rolling.mean. rewrite roll_mean_from_length. exact Hi.
      * now rewrite length_map.
Qed.

Lemma moving_average_is_trailing_mean_witness :
  nth_error (daily_ma (daily three_frame 7)) 2
  = Some (Some (arithmetic_mean
                  (trailing_window (daily_deaths (daily three_frame 7)) 7 2))).
Proof.
  apply (proj1 (proj2 (moving_average_is_trailing_mean three_frame 7
                         ltac:(lia))) 2%nat).
  simpl. lia.
Defined.

(** Over the three reports and a window of two days: 10, then the mean
    of 10 and 5, then the mean of 5 and -2. *)
Example moving_average_of_two_days :
  daily_ma (daily three_frame 2) = [Some (10 # 1); Some (15 # 2); Some (3 # 2)]%Q.
Proof. reflexivity. Qed.


(** * Further properties of the script *)

(** ** Labels, slices and cards *)

Lemma filter_map_length {A B : Type} (f : A -> B) (p : B -> bool) (l : list A) :
  List.length (filter p (map f l)) = List.length (filter (fun x => p (f x)) l).
Proof.
  induction l as [|x l IH]; simpl; [reflexivity |].
  destruct (p (f x)); simpl; now rewrite IH.
Qed.

Lemma filter_length_split {A : Type} (p q : A -> bool) (l : list A) :
  List.length (filter p l)
  = (List.length (filter (fun x => p x && q x) l)
     + List.length (filter (fun x => p x && negb (q x)) l))%nat.
Proof.
  induction l as [|x l IH]; simpl; [reflexivity |].
  destruct (p x), (q x); simpl; lia.
Qed.

(** The label of a record, read backwards, as booleans on its cells. *)
Lemma categorize_cells (r : killed_row) :
  category_eqb Children (categorize r) = cell_lt (age r) 18
  /\ category_eqb Women (categorize r)
     = cell_eq (sex r) "f" && cell_ge (age r) 18
  /\ category_eqb Seniors (categorize r)
     = negb (cell_eq (sex r) "f") && cell_ge (age r) 60.
Proof.
  unfold categorize, cell_lt, cell_ge.
  destruct (age r) as [a|]; [| now destruct (cell_eq (sex r) "f")].
  destruct (Z.ltb_spec a 18), (Z.leb_spec 18 a), (Z.leb_spec 60 a); try lia;
    destruct (cell_eq (sex r) "f"); repeat split.
Qed.

Lemma cell_ge_true (c : option Z) (bound : Z) :
  cell_ge c bound = true <-> exists v, c = Some v /\ bound <= v.
Proof.
  destruct c as [v|]; simpl.
  - rewrite Z.leb_le. split.
    + intros H. now exists v.
    + intros (w & E & H). now injection E as ->.
  - split; [discriminate | intros (w & E & _); discriminate].
Qed.

(** X1: read backwards, a label tells the cells of the record: Children
    is exactly a known age below 18, Women exactly sex ['f'] with a
    known age of 18 or more, Seniors exactly a known age of 60 or more
    with a sex other than ['f']; Women are never minors and Seniors
    never female. *)
Theorem categorize_label_iff (r : killed_row) :
  (categorize r = Children <-> known_minor r)
  /\ (categorize r = Women
      <-> of_sex "f" r /\ exists a, age r = Some a /\ 18 <= a)
  /\ (categorize r = Seniors
      <-> ~ of_sex "f" r /\ exists a, age r = Some a /\ 60 <= a).
Proof.
  destruct (categorize_cells r) as (Hc & Hw & Hs).
  assert (Heqb : forall c, categorize r = c <-> category_eqb c (categorize r) = true)
    by (intros c; destruct c, (categorize r); simpl; split; congruence).
  rewrite !Heqb, Hc, Hw, Hs, !andb_true_iff, negb_true_iff.
  rewrite cell_lt_true, !cell_ge_true.
  assert (Hf : cell_eq (sex r) "f" = false <-> ~ of_sex "f" r).
  { unfold of_sex. rewrite <- cell_eq_true.
    destruct (cell_eq (sex r) "f"); split; congruence. }
  rewrite Hf, cell_eq_true. unfold known_minor, of_sex. tauto.
Qed.

(** X2: the Children slice of the pie counts the same records as the
    Children card. *)
Theorem children_slice_is_children_card (df_killed : list killed_row) :
  value_counts (map categorize df_killed) Children = children_count df_killed.
Proof.
  unfold value_counts, children_count. rewrite filter_map_length.
  f_equal. apply filter_ext. intros r. apply categorize_cells.
Qed.

(** X4: the Women card is not the Women slice: it exceeds it by the
    records of sex ['f'] whose age is unknown or below 18, which the pie
    puts among Others and Children. *)
Theorem women_card_splits (df_killed : list killed_row) :
  women_count df_killed
  = (value_counts (map categorize df_killed) Women
     + List.length
         (filter (fun r => cell_eq (sex r) "f" && negb (cell_ge (age r) 18))
            df_killed))%nat.
Proof.
  unfold women_count, value_counts.
  rewrite filter_map_length.
  rewrite (filter_length_split _ (fun r => cell_ge (age r) 18)).
  do 2 f_equal. apply filter_ext. intros r. symmetry. apply categorize_cells.
Qed.

(** X5: no record is counted on both the Men card and the Women card;
    with the records whose sex is neither ['m'] nor ['f'] they make up
    all the records. *)
Theorem men_women_cards_disjoint (df_killed : list killed_row) :
  (men_count df_killed + women_count df_killed
   + List.length
       (filter (fun r => negb (cell_eq (sex r) "m") && negb (cell_eq (sex r) "f"))
          df_killed))%nat
  = List.length df_killed.
Proof.
  unfold men_count, women_count.
  induction df_killed as [|r l IH]; simpl; [reflexivity |].
  destruct (sex r) as [v|]; simpl; [| lia].
  destruct (String.eqb_spec v "m") as [-> | _]; simpl; [lia |].
  destruct (String.eqb v "f"); simpl; lia.
Qed.

(** X6: the histogram has one age per record of known age, so never
    more than there are records, and the Children card is the number of
    its ages below 18. *)
Theorem age_counts_and_children_card (df_killed : list killed_row) :
  List.length (age_counts df_killed)
  = List.length (filter (fun r => known (age r)) df_killed)
  /\ (List.length (age_counts df_killed) <= List.length df_killed)%nat
  /\ children_count df_killed
     = List.length (filter (fun a => a <? 18) (age_counts df_killed)).
Proof.
  unfold age_counts, Series.astype_int, children_count.
  induction df_killed as [|r l (IH1 & IH2 & IH3)]; simpl; [repeat split; lia |].
  destruct (age r) as [a|]; simpl.
  - destruct (a <? 18); simpl; repeat split; lia.
  - repeat split; lia.
Qed.

(** ** The date filter, further *)

Lemma in_range_true (start_date end_date : Date) (r : casualties_row) :
  in_range start_date end_date r = true
  <-> exists t, report_date r = Some t /\ start_date <= date t <= end_date.
Proof.
  unfold in_range. destruct (report_date r) as [t|]; simpl.
  - rewrite andb_true_iff, !Z.leb_le. split.
    + intros H. now exists t.
    + intros (u & [= <-] & H). exact H.
  - split; [discriminate | intros (u & E & _); discriminate].
Qed.

Lemma filter_subsequence {A : Type} (p : A -> bool) (l : list A) :
  subsequence (filter p l) l.
Proof.
  induction l as [|x l IH]; simpl; [constructor |].
  destruct (p x); now constructor.
Qed.

Lemma filter_twice {A : Type} (p q : A -> bool) (l : list A) :
  filter q (filter p l) = filter (fun x => p x && q x) l.
Proof.
  induction l as [|x l IH]; simpl; [reflexivity |].
  destruct (p x); simpl; [destruct (q x) |]; now rewrite IH.
Qed.

(** X7: the filtered frame is the frame with some rows left out, the
    others in their order; the rows it keeps are exactly those whose
    date is known and whose calendar day is between the two bounds,
    both included; the columns are those of the frame. *)
Theorem filter_keeps_rows_in_range (df_casualties : casualties_frame)
    (start_date end_date : Date) :
  let filtered := df_casualties_filtered df_casualties start_date end_date in
  subsequence (rows filtered) (rows df_casualties)
  /\ (forall r,
        In r (rows filtered)
        <-> In r (rows df_casualties)
            /\ exists t, report_date r = Some t
                         /\ start_date <= date t <= end_date)
  /\ has_injured_cum filtered = has_injured_cum df_casualties.
Proof.
  cbn [df_casualties_filtered rows has_injured_cum]. repeat split.
  - apply filter_subsequence.
  - now apply filter_In in H.
  - apply filter_In in H as [_ H]. now apply in_range_true in H.
  - intros [Hr H]. apply filter_In. split; [exact Hr |].
    now apply in_range_true.
Qed.

(** X8: filtering a filtered frame by a second pair of bounds is
    filtering the frame once by the later start and the earlier end;
    filtering twice by the same pair changes nothing. *)
Theorem filter_twice_is_intersection (df_casualties : casualties_frame)
    (start1 end1 start2 end2 : Date) :
  df_casualties_filtered
    (df_casualties_filtered df_casualties start1 end1) start2 end2
  = df_casualties_filtered df_casualties (Z.max start1 start2) (Z.min end1 end2)
  /\ df_casualties_filtered
       (df_casualties_filtered df_casualties start1 end1) start1 end1
     = df_casualties_filtered df_casualties start1 end1.
Proof.
  assert (Hmask : forall s1 e1 s2 e2 r,
             in_range s1 e1 r && in_range s2 e2 r
             = in_range (Z.max s1 s2) (Z.min e1 e2) r).
  { intros s1 e1 s2 e2 r. unfold in_range.
    destruct (report_date r) as [t|]; simpl; [| reflexivity].
    destruct (Z.leb_spec s1 (date t)), (Z.leb_spec (date t) e1),
      (Z.leb_spec s2 (date t)), (Z.leb_spec (date t) e2),
      (Z.leb_spec (Z.max s1 s2) (date t)), (Z.leb_spec (date t) (Z.min e1 e2));
      simpl; trivial; lia. }
  assert (Hcomp : forall s1 e1 s2 e2,
             df_casualties_filtered (df_casualties_filtered df_casualties s1 e1) s2 e2
             = df_casualties_filtered df_casualties (Z.max s1 s2) (Z.min e1 e2)).
  { intros s1 e1 s2 e2. unfold df_casualties_filtered. cbn [rows has_injured_cum].
    f_equal. rewrite filter_twice. apply filter_ext. intros r.
    apply (Hmask s1 e1 s2 e2 r). }
  split; [apply Hcomp |].
  rewrite Hcomp. now rewrite Z.max_id, Z.min_id.
Qed.

(** X9: the two ends of the slider are known as soon as one report has
    a date, the least is not after the greatest, and the day of every
    dated report lies between them. *)
Theorem slider_ends_cover_dated_reports (df_casualties : casualties_frame) :
  ((exists r, In r (rows df_casualties) /\ known_date r = true)
   -> exists lo hi, min_date df_casualties = Some lo
                    /\ max_date df_casualties = Some hi)
  /\ (forall lo hi,
        min_date df_casualties = Some lo ->
        max_date df_casualties = Some hi ->
        lo <= hi
        /\ forall r t, In r (rows df_casualties) -> report_date r = Some t ->
                       lo <= date t <= hi).
Proof.
  unfold min_date, max_date. split.
  - intros (r & Hr & Hk). unfold known_date in Hk.
    destruct (report_date r) as [t|] eqn:Et; [| discriminate].
    assert (Hin : In (Some t) (map report_date (rows df_casualties)))
      by (rewrite <- Et; now apply in_map).
    destruct (series_max_known _ _ Hin) as [tmax ->].
    destruct (Series.min _) as [tmin|] eqn:Emin; [simpl; eauto |].
    exfalso. clear -Emin Hin. revert Emin Hin.
    generalize (map report_date (rows df_casualties)) as c.
    induction c as [|[u|] c IH]; simpl; intros Emin Hin.
    + exact Hin.
    + destruct (Series.min c); discriminate.
    + destruct Hin as [Hin | Hin]; [discriminate | now apply IH].
  - intros lo hi Hlo Hhi.
    destruct (Series.min _) as [tmin|] eqn:Emin; [| discriminate].
    destruct (Series.max _) as [tmax|] eqn:Emax; [| discriminate].
    injection Hlo as <-. injection Hhi as <-.
    split.
    + apply date_monotone.
      apply (series_min_lower _ _ Emin). now apply series_max_member.
    + intros r t Hr Et.
      assert (Hin : In (Some t) (map report_date (rows df_casualties)))
        by (rewrite <- Et; now apply in_map).
      split; apply date_monotone;
        [apply (series_min_lower _ _ Emin) | apply (series_max_upper _ _ Emax)];
        exact Hin.
Qed.

Lemma slider_ends_cover_dated_reports_witness :
  (exists lo hi, min_date misdated_frame = Some lo
                 /\ max_date misdated_frame = Some hi)
  /\ 19723 <= 19724.
Proof.
  split.
  - apply (proj1 (slider_ends_cover_dated_reports misdated_frame)).
    exists (row (Some (day 19723)) 10). split; [now left | reflexivity].
  - apply (proj2 (slider_ends_cover_dated_reports misdated_frame)
             19723 19724 eq_refl eq_refl).
Defined.

(** X10: the bounds are whole days: a report stamped at any time of a
    day is kept by the range that starts and ends on that day. *)
Theorem filter_bounds_are_whole_days (df_casualties : casualties_frame)
    (r : casualties_row) (d time_of_day : Z) :
  In r (rows df_casualties) ->
  report_date r = Some (day d + time_of_day) ->
  0 <= time_of_day < ns_per_day ->
  In r (rows (df_casualties_filtered df_casualties d d)).
Proof.
  intros Hr Et Htod. cbn [df_casualties_filtered rows].
  apply filter_In. split; [exact Hr |].
  apply (in_range_true d d r). exists (day d + time_of_day). split; [exact Et |].
  assert (E : date (day d + time_of_day) = d).
  { unfold date, day. symmetry.
    apply (Z.div_unique _ _ d time_of_day); [left; exact Htod | ring]. }
  rewrite E. lia.
Qed.

Lemma filter_bounds_are_whole_days_witness :
  In (row (Some (day 19723 + 86399000000000)) 10)
     (rows (df_casualties_filtered
              (frame [row (Some (day 19723 + 86399000000000)) 10]) 19723 19723)).
Proof.
  apply (filter_bounds_are_whole_days
           (frame [row (Some (day 19723 + 86399000000000)) 10])
           (row (Some (day 19723 + 86399000000000)) 10) 19723 86399000000000).
  - now left.
  - reflexivity.
  - unfold ns_per_day. lia.
Defined.

(** ** The daily series, further *)

Lemma last_cons (x : Z) (l : list Z) (d : Z) : last (x :: l) d = last l x.
Proof.
  revert x d. induction l as [|y l IH]; intros x d; [reflexivity |].
  change (last (x :: y :: l) d) with (last (y :: l) d).
  now rewrite (IH y d), (IH y x).
Qed.

Lemma total_fillna_diff_from (s : list Z) :
  forall prev,
    total (Series.fillna (Series.diff_from prev s) s) = last s prev - prev.
Proof.
  unfold total. induction s as [|x s IH]; intros prev.
  - simpl. lia.
  - rewrite last_cons. cbn [Series.diff_from Series.fillna fold_right].
    rewrite IH. lia.
Qed.

Lemma total_fillna_diff (s : list Z) :
  total (Series.fillna (Series.diff s) s) = last s 0.
Proof.
  destruct s as [|x s]; [reflexivity |].
  rewrite last_cons. cbn [Series.diff Series.fillna].
  unfold total. cbn [fold_right]. fold (total (Series.fillna (Series.diff_from x s) s)).
  rewrite total_fillna_diff_from. lia.
Qed.

Lemma prefix_fillna_diff_from (s : list Z) :
  forall prev i c,
    nth_error s i = Some c ->
    total (firstn (S i) (Series.fillna (Series.diff_from prev s) s)) = c - prev.
Proof.
  unfold total. induction s as [|x s IH]; intros prev i c Hc.
  - destruct i; discriminate.
  - change (Series.fillna (Series.diff_from prev (x :: s)) (x :: s))
      with ((x - prev) :: Series.fillna (Series.diff_from x s) s).
    rewrite firstn_cons. cbn [fold_right]. destruct i as [|i].
    + injection Hc as ->. cbn. lia.
    + simpl in Hc. rewrite (IH x i c Hc). lia.
Qed.

Lemma prefix_fillna_diff (s : list Z) (i : nat) (c : Z) :
  nth_error s i = Some c ->
  total (firstn (S i) (Series.fillna (Series.diff s) s)) = c.
Proof.
  destruct s as [|x s]; [destruct i; discriminate |].
  change (Series.fillna (Series.diff (x :: s)) (x :: s))
    with (x :: Series.fillna (Series.diff_from x s) s).
  rewrite firstn_cons. unfold total. cbn [fold_right].
  destruct i as [|i]; cbn [nth_error].
  - intros [= ->]. cbn. lia.
  - intros Hc.
    fold (total (firstn (S i) (Series.fillna (Series.diff_from x s) s))).
    rewrite (prefix_fillna_diff_from s x i c Hc). lia.
Qed.

(** X11: the daily deaths of the selected range add up to the
    cumulative count of its last report (to 0 when no report is in the
    range): the first entry carries the whole count before the range. *)
Theorem daily_deaths_add_up (filtered : casualties_frame) (window : nat) :
  total (daily_deaths (daily filtered window))
  = last (map killed_cum (rows filtered)) 0.
Proof.
  unfold daily; cbn [daily_deaths]. apply total_fillna_diff.
Qed.

(** X12: as long as the window reaches back to the first report of the
    range, the moving average at a position is the cumulative count
    there divided by the number of reports so far. *)
Theorem moving_average_of_long_window (filtered : casualties_frame)
    (window i : nat) (c : Z) :
  (i < window)%nat ->
  nth_error (map killed_cum (rows filtered)) i = Some c ->
  nth_error (daily_ma (daily filtered window)) i
  = Some (Some (Qmake c (Pos.of_nat (S i)))).
Proof.
  intros Hw Hc. unfold daily; cbn [daily_ma].
  set (cum := map killed_cum (rows filtered)) in *.
  assert (Hi : (i < List.length cum)%nat)
    by (apply nth_error_Some; congruence).
  rewrite rolling_mean_nth by (rewrite ?fillna_diff_length; lia).
  do 2 f_equal. unfold trailing_window.
  replace (Z.to_nat (Z.max 0 (Z.of_nat i - Z.of_nat window + 1))) with 0%nat by lia.
  rewrite Nat.sub_0_r, Nat.add_1_r. cbn [skipn].
  unfold arithmetic_mean.
  rewrite length_firstn, fillna_diff_length, Nat.min_l by lia.
  f_equal. apply (prefix_fillna_diff cum i c Hc).
Qed.

Lemma moving_average_of_long_window_witness :
  nth_error (daily_ma (daily three_frame 7)) 2 = Some (Some (13 # 3)).
Proof.
  apply (moving_average_of_long_window three_frame 7 2 13);
    [lia | reflexivity].
Defined.

Lemma total_nonneg (l : list Z) : Forall (fun v => 0 <= v) l -> 0 <= total l.
Proof.
  unfold total. induction 1 as [|x l Hx _ IH]; simpl; lia.
Qed.

Lemma Forall_slice {A : Type} (P : A -> Prop) (l : list A) (lo k : nat) :
  Forall P l -> Forall P (firstn k (skipn lo l)).
Proof.
  intros H.
  rewrite <- (firstn_skipn lo l) in H. apply Forall_app in H as [_ H].
  rewrite <- (firstn_skipn k (skipn lo l)) in H. now apply Forall_app in H.
Qed.

(** X13: when the cumulative counts of the range never decrease and
    start at 0 or more, no daily deaths entry is negative, and for a
    window of at least one day no moving average is. *)
Theorem daily_series_nonnegative (filtered : casualties_frame) (window : nat) :
  let cumulative := map killed_cum (rows filtered) in
  (forall c, nth_error cumulative 0 = Some c -> 0 <= c) ->
  (forall i p c, nth_error cumulative i = Some p ->
                 nth_error cumulative (S i) = Some c -> p <= c) ->
  (1 <= window)%nat ->
  Forall (fun v => 0 <= v) (daily_deaths (daily filtered window))
  /\ Forall (fun m => exists q, m = Some q /\ (0 <= q)%Q)
       (daily_ma (daily filtered window)).
Proof.
  intros cumulative Hfirst Hstep Hw. unfold daily; cbn [daily_deaths daily_ma].
  fold cumulative. set (deaths := Series.fillna _ _).
  assert (Hlen : List.length deaths = List.length cumulative)
    by apply fillna_diff_length.
  assert (Hdeaths : Forall (fun v => 0 <= v) deaths).
  { apply Forall_forall. intros v Hv.
    apply In_nth_error in Hv as [i Hi]. destruct i as [|i].
    - unfold deaths in Hi. rewrite fillna_diff_head in Hi. now apply Hfirst.
    - assert (Hlt : (S i < List.length cumulative)%nat)
        by (rewrite <- Hlen; apply nth_error_Some; congruence).
      destruct (nth_error cumulative (S i)) as [c|] eqn:Ec;
        [| apply nth_error_None in Ec; lia].
      destruct (nth_error cumulative i) as [p|] eqn:Ep;
        [| apply nth_error_None in Ep; lia].
      unfold deaths in Hi. rewrite (fillna_diff_nth _ _ _ _ Ep Ec) in Hi.
      injection Hi as <-. specialize (Hstep i p c Ep Ec). lia. }
  split; [exact Hdeaths |].
  apply Forall_forall. intros m Hm.
  apply In_nth_error in Hm as [i Hi].
  assert (Hlt : (i < List.length deaths)%nat).
  { unfold Rolling.mean in Hi.
    rewrite <- (roll_mean_from_length deaths 1 window (List.length deaths) 0 Rolling.empty).
    apply nth_error_Some. congruence. }
  rewrite (rolling_mean_nth deaths window i Hw Hlt) in Hi. injection Hi as <-.
  eexists. split; [reflexivity |].
  unfold arithmetic_mean, Qle. cbn [Qnum Qden].
  pose proof (total_nonneg _ (Forall_slice _ _
    (Z.to_nat (Z.max 0 (Z.of_nat i - Z.of_nat window + 1)))
    (i - Z.to_nat (Z.max 0 (Z.of_nat i - Z.of_nat window + 1)) + 1) Hdeaths)) as Hsum.
  unfold total, trailing_window in *. lia.
Qed.

Lemma daily_series_nonnegative_witness :
  Forall (fun v => 0 <= v)
    (daily_deaths (daily (frame [row (Some (day 19723)) 10;
                                 row (Some (day 19724)) 15]) 7)).
Proof.
  apply (daily_series_nonnegative
           (frame [row (Some (day 19723)) 10; row (Some (day 19724)) 15]) 7).
  - intros c [= <-]. lia.
  - intros [|[|i]] p c Hp Hc; simpl in *; try discriminate.
    injection Hp as <-. injection Hc as <-. lia.
  - lia.
Defined.

(** ** One run of the script *)

Lemma dashboard_returns to_datetime killed casualties window start_date end_date p :
  dashboard to_datetime killed casualties window start_date end_date = Returns p ->
  exists df_killed df_casualties cards,
    load_data to_datetime killed casualties = Returns (df_killed, df_casualties)
    /\ metric_cards df_killed df_casualties = Returns cards
    /\ page_daily p
       = daily (df_casualties_filtered df_casualties start_date end_date) window
    /\ page_metrics p = cards.
Proof.
  unfold dashboard.
  destruct (load_data to_datetime killed casualties) as [[df_killed df]|e] eqn:El;
    simpl; [| discriminate].
  destruct (metric_cards df_killed df) as [cards|e] eqn:Ec; simpl; [| discriminate].
  intros [= <-]. now exists df_killed, df, cards.
Qed.

Lemma load_data_rows to_datetime killed casualties df_killed df_casualties :
  load_data to_datetime killed casualties = Returns (df_killed, df_casualties) ->
  rows df_casualties = map (casualties_of_json to_datetime) casualties
  /\ casualties <> [].
Proof.
  unfold load_data. destruct casualties as [|o l]; [discriminate |].
  intros [= _ <-]. split; [reflexivity | discriminate].
Qed.

Lemma filter_length_le {A : Type} (p : A -> bool) (l : list A) :
  (List.length (filter p l) <= List.length l)%nat.
Proof.
  induction l as [|x l IH]; simpl; [lia |]. destruct (p x); simpl; lia.
Qed.

(** X14: in the page of a run the four columns of the daily frame have
    one length, at most the number of reports of the collection, and
    every date of the frame is known and falls on a day between the two
    bounds of the slider. *)
Theorem page_daily_is_aligned to_datetime killed casualties window
    start_date end_date p :
  dashboard to_datetime killed casualties window start_date end_date = Returns p ->
  let d := page_daily p in
  List.length (daily_killed_cum d) = List.length (daily_report_date d)
  /\ List.length (daily_deaths d) = List.length (daily_report_date d)
  /\ List.length (daily_ma d) = List.length (daily_report_date d)
  /\ (List.length (daily_report_date d) <= List.length casualties)%nat
  /\ Forall (fun c => exists t, c = Some t /\ start_date <= date t <= end_date)
       (daily_report_date d).
Proof.
  intros Hrun d.
  destruct (dashboard_returns _ _ _ _ _ _ _ Hrun)
    as (df_killed & df & cards & Hload & _ & Hd & _).
  destruct (load_data_rows _ _ _ _ _ Hload) as [Hrows _].
  unfold d. rewrite Hd. unfold daily.
  cbn [daily_killed_cum daily_report_date daily_deaths daily_ma].
  rewrite fillna_diff_length. unfold Rolling.mean.
  rewrite roll_mean_from_length, fillna_diff_length, !length_map.
  repeat split.
  - cbn [df_casualties_filtered rows]. rewrite Hrows.
    etransitivity; [apply filter_length_le | now rewrite length_map].
  - apply Forall_forall. intros c Hc.
    apply in_map_iff in Hc as (r & <- & Hr).
    cbn [df_casualties_filtered rows] in Hr. apply filter_In in Hr as [_ Hr].
    now apply (in_range_true start_date end_date r).
Qed.

Lemma page_daily_is_aligned_witness :
  Forall (fun c => exists t, c = Some t /\ 19724 <= date t <= 19725)
    [Some (day 19724); Some (day 19725)].
Proof.
  apply (page_daily_is_aligned iso_to_datetime four_people three_reports 7
           19724 19725
           {| page_daily := daily (df_casualties_filtered three_frame 19724 19725) 7;
              page_age_counts := [5; 65; 40];
              page_metrics :=
                {| total_deaths := 15; children := 1; men := 2; women := 2;
                   cumulative_injured := 0 |};
              page_category := [Children; Others; Seniors; Women] |}
           eq_refl).
Defined.

Lemma last_In (l : list Z) (d : Z) : l <> [] -> In (last l d) l.
Proof.
  induction l as [|x l IH]; [congruence |]. intros _.
  destruct l as [|y l]; [now left |].
  right. apply IH. discriminate.
Qed.

(** X15: the daily deaths shown for a range with a report in it never
    add up to more than the Total deaths card, which is taken over all
    the reports. *)
Theorem daily_deaths_within_total to_datetime killed casualties window
    start_date end_date p :
  dashboard to_datetime killed casualties window start_date end_date = Returns p ->
  daily_deaths (page_daily p) <> [] ->
  total (daily_deaths (page_daily p)) <= total_deaths (page_metrics p).
Proof.
  intros Hrun Hne.
  destruct (dashboard_returns _ _ _ _ _ _ _ Hrun)
    as (df_killed & df & cards & _ & Hcards & Hd & Hm).
  rewrite Hd in *. rewrite Hm. clear Hd Hm Hrun.
  unfold daily in *; cbn [daily_deaths] in *.
  rewrite total_fillna_diff.
  set (cum := map killed_cum (rows (df_casualties_filtered df start_date end_date))) in *.
  assert (Hcum : cum <> []).
  { intros E. apply Hne. now rewrite E. }
  pose proof (last_In cum 0 Hcum) as Hlast.
  unfold cum in Hlast at 2. apply in_map_iff in Hlast as (r & Er & Hr).
  rewrite <- Er. cbn [df_casualties_filtered rows] in Hr.
  apply filter_In in Hr as [Hr _].
  unfold metric_cards in Hcards.
  destruct (total_latest df) as [m|] eqn:Em; [simpl in Hcards | discriminate].
  destruct (Py.int (injured_total df)); [simpl in Hcards | discriminate].
  injection Hcards as <-. cbn [total_deaths].
  destruct (total_latest_maximum df m Em) as [_ Hall].
  apply (proj1 (Forall_forall _ _) Hall). now apply in_map.
Qed.

Lemma daily_deaths_within_total_witness :
  total (daily_deaths (daily (df_casualties_filtered three_frame 19723 19724) 7))
  <= 15.
Proof.
  apply (daily_deaths_within_total iso_to_datetime four_people three_reports 7
           19723 19724
           {| page_daily := daily (df_casualties_filtered three_frame 19723 19724) 7;
              page_age_counts := [5; 65; 40];
              page_metrics :=
                {| total_deaths := 15; children := 1; men := 2; women := 2;
                   cumulative_injured := 0 |};
              page_category := [Children; Others; Seniors; Women] |}
           eq_refl).
  discriminate.
Defined.

Lemma series_max_unknown (s : list (option Z)) :
  (forall v, ~ In (Some v) s) -> Series.max s = None.
Proof.
  intros H. destruct (Series.max s) as [m|] eqn:E; [| reflexivity].
  apply series_max_member in E. now apply H in E.
Qed.

(** ** The records [load_data] returns *)

(** X17: [load_data] drops no record of the killed collection: the
    frame has one row per object, in order, whose age and sex are the
    values the object gives; an object without an age (absent or null)
    gets a row of unknown age, which is labelled Others, is on no
    Children card and brings no age to the histogram. *)
Theorem load_data_keeps_every_record (to_datetime : string -> option Timestamp)
    (killed : list killed_json) (casualties : list casualties_json)
    (df_killed : list killed_row) (df_casualties : casualties_frame) :
  load_data to_datetime killed casualties = Returns (df_killed, df_casualties) ->
  List.length df_killed = List.length killed
  /\ forall i o,
       nth_error killed i = Some o ->
       exists r,
         nth_error df_killed i = Some r
         /\ (forall a, age r = Some a <-> json_age o = Value a)
         /\ (forall v, sex r = Some v <-> json_sex o = Value v)
         /\ (present (json_age o) = false \/ json_age o = Null ->
             categorize r = Others
             /\ children_count [r] = 0%nat
             /\ age_counts [r] = []).
Proof.
  unfold load_data. destruct casualties as [|c l]; [discriminate |].
  intros [= <- _]. split; [apply length_map |].
  intros i o Hi. exists (killed_of_json o).
  split; [now apply map_nth_error |].
  cbn [killed_of_json age sex]. split; [| split].
  - intros a. destruct (json_age o); simpl; split; congruence.
  - intros v. destruct (json_sex o); simpl; split; congruence.
  - intros Hage.
    assert (E : cell (json_age o) = None)
      by (destruct (json_age o), Hage; simpl in *; congruence).
    unfold categorize, children_count, age_counts. cbn. rewrite E.
    repeat split.
Qed.

Lemma load_data_keeps_every_record_witness :
  List.length (map killed_of_json four_people) = List.length four_people.
Proof.
  apply (load_data_keeps_every_record iso_to_datetime four_people three_reports
           (map killed_of_json four_people) three_frame eq_refl).
Defined.

(** ** The run with its widgets *)

Lemma st_number_input_bounds (entered : option nat) :
  (1 <= st_number_input 1 30 7 entered <= 30)%nat.
Proof.
  unfold st_number_input. destruct entered as [n|]; [| lia].
  destruct (Nat.leb_spec 1 n), (Nat.leb_spec n 30); simpl; lia.
Qed.

Lemma st_slider_returns (min_value max_value : option Date)
    (selected : option (Date * Date)) (selection : Date * Date) :
  st_slider min_value max_value selected = Returns selection ->
  exists lo hi,
    min_value = Some lo /\ max_value = Some hi /\ lo < hi
    /\ lo <= fst selection <= snd selection /\ snd selection <= hi.
Proof.
  unfold st_slider.
  destruct min_value as [lo|], max_value as [hi|]; try discriminate.
  destruct (Z.ltb_spec lo hi) as [Hroom|]; [| discriminate].
  intros [= <-]. exists lo, hi. do 3 (split; [trivial |]).
  destruct selected as [[s e]|]; [| simpl; lia].
  destruct (Z.leb_spec lo s), (Z.leb_spec s e), (Z.leb_spec e hi); simpl; lia.
Qed.

Lemma st_slider_room (lo hi : Date) (selected : option (Date * Date)) :
  lo < hi -> exists selection, st_slider (Some lo) (Some hi) selected = Returns selection.
Proof.
  intros Hroom. unfold st_slider.
  destruct (Z.ltb_spec lo hi); [eauto | lia].
Qed.

(** A page of the run is the page of [dashboard] for a window of 1 to
    30 days and a pair of dates in order. *)
Lemma app_is_dashboard to_datetime killed casualties entered selected p :
  app to_datetime killed casualties entered selected = Returns p ->
  exists window start_date end_date,
    dashboard to_datetime killed casualties window start_date end_date = Returns p
    /\ (1 <= window <= 30)%nat
    /\ start_date <= end_date.
Proof.
  unfold app, dashboard. fold (page_of_frames).
  destruct (load_data to_datetime killed casualties) as [[df_killed df]|e];
    [cbn [Py.bind fst snd] | discriminate].
  destruct (st_slider (min_date df) (max_date df) selected) as [selection|e] eqn:Es;
    [cbn [Py.bind] | discriminate].
  intros Hp.
  destruct (st_slider_returns _ _ _ _ Es) as (lo & hi & _ & _ & _ & Hord & _).
  exists (st_number_input 1 30 7 entered), (fst selection), (snd selection).
  split; [exact Hp |]. split; [apply st_number_input_bounds | lia].
Qed.

(** X16: how a run ends.  With no report in the collection it raises
    the KeyError of the missing column ['report_date'].  With reports,
    the slider raises when no report has a date and when all the dated
    reports are of one day, whatever the rest.  Past the slider, the
    run raises a ValueError at the Cumulative Injured card when the
    frame has the column ['injured_cum'] with no number in it, and with
    a record in the killed collection it returns its page when the
    column is absent or holds a number. *)
Theorem app_outcomes to_datetime killed casualties entered selected :
  let run := app to_datetime killed casualties entered selected in
  (casualties = [] -> run = Raises (KeyError "report_date"))
  /\ (forall df_killed df_casualties,
        load_data to_datetime killed casualties
        = Returns (df_killed, df_casualties) ->
        let injured := map injured_cum (rows df_casualties) in
        (min_date df_casualties = None
         \/ (exists d, min_date df_casualties = Some d
                       /\ max_date df_casualties = Some d) ->
         exists e, run = Raises e)
        /\ (forall lo hi,
              min_date df_casualties = Some lo ->
              max_date df_casualties = Some hi ->
              lo < hi ->
              (has_injured_cum df_casualties = true ->
               (forall v, ~ In (Some v) injured) ->
               exists msg, run = Raises (ValueError msg))
              /\ (killed <> [] ->
                  has_injured_cum df_casualties = false
                  \/ (exists v, In (Some v) injured) ->
                  exists p, run = Returns p))).
Proof.
  intros run. unfold run, app. split.
  - intros ->. reflexivity.
  - intros df_killed df Hload. set (injured := map injured_cum (rows df)).
    rewrite Hload. cbn [Py.bind fst snd].
    split.
    + intros [Hnone | (d & Hlo & Hhi)].
      * rewrite Hnone. simpl. eauto.
      * rewrite Hlo, Hhi. unfold st_slider. rewrite Z.ltb_irrefl. simpl. eauto.
    + intros lo hi Hlo Hhi Hroom. rewrite Hlo, Hhi.
      destruct (st_slider_room lo hi selected Hroom) as [selection ->].
      cbn [Py.bind]. unfold page_of_frames, metric_cards.
      destruct (load_data_rows _ _ _ _ _ Hload) as [Hrows Hne].
      assert (Hreport : rows df <> [])
        by (rewrite Hrows; destruct casualties; [congruence | discriminate]).
      destruct (total_latest_known df Hreport) as [m ->].
      cbn [Py.int Py.bind]. unfold injured_total. fold injured. split.
      * intros -> Hnan. rewrite (series_max_unknown injured Hnan).
        cbn [Py.int Py.bind]. eauto.
      * intros _ [-> | [v Hv]].
        -- cbn [Py.int Py.bind]. eauto.
        -- destruct (series_max_known injured v Hv) as [w ->].
           destruct (has_injured_cum df); cbn [Py.int Py.bind]; eauto.
Qed.

Lemma app_outcomes_witness :
  app iso_to_datetime four_people [] None None = Raises (KeyError "report_date")
  /\ (exists e,
        app iso_to_datetime four_people
          [report "2024-01-01" 10; report "2024-01-01" 12] None None
        = Raises e)
  /\ (exists msg,
        app iso_to_datetime four_people
          [ {| json_report_date := "2024-01-01"; json_killed_cum := 10;
               json_injured_cum := Null |};
            {| json_report_date := "2024-01-02"; json_killed_cum := 15;
               json_injured_cum := Missing |} ] (Some 3%nat) None
        = Raises (ValueError msg))
  /\ (exists p,
        app iso_to_datetime four_people three_reports None
          (Some (19724, 19725)) = Returns p).
Proof.
  split; [| split; [| split]].
  - apply (proj1 (app_outcomes iso_to_datetime four_people [] None None)).
    reflexivity.
  - apply (proj1 (proj2 (app_outcomes iso_to_datetime four_people
             [report "2024-01-01" 10; report "2024-01-01" 12] None None)
             _ _ eq_refl)).
    right. exists 19723. split; reflexivity.
  - apply (proj1 (proj2 (proj2 (app_outcomes iso_to_datetime four_people
             [ {| json_report_date := "2024-01-01"; json_killed_cum := 10;
                  json_injured_cum := Null |};
               {| json_report_date := "2024-01-02"; json_killed_cum := 15;
                  json_injured_cum := Missing |} ] (Some 3%nat) None)
             _ _ eq_refl) 19723 19724 eq_refl eq_refl ltac:(lia))).
    + reflexivity.
    + intros v [H | [H | []]]; discriminate.
  - apply (proj2 (proj2 (proj2 (app_outcomes iso_to_datetime four_people
             three_reports None (Some (19724, 19725)))
             _ _ eq_refl) 19723 19725 eq_refl eq_refl ltac:(lia))).
    + discriminate.
    + now left.
Defined.

(** X18: the cards of a run do not depend on what is entered in the
    number input or selected on the slider: two runs over the same
    collections show the same five cards, or end with the same
    exception. *)
Theorem app_metrics_ignore_widgets to_datetime killed casualties
    (entered entered' : option nat) (selected selected' : option (Date * Date)) :
  Py.fmap page_metrics (app to_datetime killed casualties entered selected)
  = Py.fmap page_metrics (app to_datetime killed casualties entered' selected').
Proof.
  unfold app, Py.fmap.
  destruct (load_data to_datetime killed casualties) as [[df_killed df]|e];
    [cbn [Py.bind fst snd] | reflexivity].
  unfold st_slider.
  destruct (min_date df) as [lo|], (max_date df) as [hi|]; try reflexivity.
  destruct (lo <? hi); [cbn [Py.bind] | reflexivity].
  unfold page_of_frames.
  destruct (metric_cards df_killed df); reflexivity.
Qed.
